(** * sentrysyslog: a shallow embedding of [src/sentrysyslog/__init__.py]

    The Python values the module handles (the parser's [as_dict()] result,
    the log record arguments and the Sentry event payload) are modelled as a
    small dynamic value type; Python dicts are association lists in
    insertion order.  Functions that can raise return [option]: [None] is
    "an exception was raised". *)

From Stdlib Require Import String List ZArith Lia Bool.
From Stdlib Require DecimalString.
Set Warnings "-register-all".
Import ListNotations.
Open Scope string_scope.
Open Scope Z_scope.

(** ** Python values *)

Inductive pyval : Type :=
| PNone
| PBool (b : bool)
| PInt (z : Z)
| PStr (s : string)
| PList (xs : list pyval)
| PDict (kvs : list (string * pyval)).

Definition pydict := list (string * pyval).

Notation "x <- m ;; k" :=
  (match m with Some x => k | None => None end)
  (at level 61, m at next level, right associativity).

Module Dict.

(** [d[k]]: [None] is a [KeyError]. *)
Fixpoint lookup (k : string) (d : pydict) : option pyval :=
  match d with
  | [] => None
  | (k', v) :: d' => if String.eqb k k' then Some v else lookup k d'
  end.

Definition mem (k : string) (d : pydict) : bool :=
  match lookup k d with Some _ => true | None => false end.

(** [d[k] = v]: an existing key keeps its position, a new key is appended. *)
Definition set (k : string) (v : pyval) (d : pydict) : pydict :=
  if mem k d
  then List.map (fun kv => if String.eqb k (fst kv) then (k, v) else kv) d
  else List.app d [(k, v)].

(** [del d[k]] on a dict whose key is present; keys are unique in a dict. *)
Definition remove (k : string) (d : pydict) : pydict :=
  List.filter (fun kv => negb (String.eqb k (fst kv))) d.

(** [d.pop(k, default)]: the popped value (or the default) and the dict. *)
Definition pop (k : string) (default : pyval) (d : pydict) : pyval * pydict :=
  match lookup k d with
  | Some v => (v, remove k d)
  | None => (default, d)
  end.

(** [d.get(k, default)] *)
Definition get (k : string) (default : pyval) (d : pydict) : pyval :=
  match lookup k d with Some v => v | None => default end.

End Dict.

(** ** Logging levels of Python's [logging] module *)

Definition CRITICAL : Z := 50.
Definition ERROR : Z := 40.
Definition WARNING : Z := 30.
Definition INFO : Z := 20.
Definition DEBUG : Z := 10.

(** [syslog_rfc5424_parser.constants.SyslogSeverity], the severity enum of the
    parser the module delegates to. *)
Inductive SyslogSeverity : Type :=
| emerg | alert | crit | err | warning | notice | info | debug.

(** [SyslogSeverity.name] *)
Definition severity_name (s : SyslogSeverity) : string :=
  match s with
  | emerg => "emerg" | alert => "alert" | crit => "crit" | err => "err"
  | warning => "warning" | notice => "notice" | info => "info"
  | debug => "debug"
  end.

(** [class SyslogSeverityToPythonLevel(enum.IntEnum)]: its members in
    declaration order, name and value. *)
Definition SyslogSeverityToPythonLevel : list (string * Z) :=
  [ ("emerg", CRITICAL); ("alert", CRITICAL); ("crit", CRITICAL);
    ("err", ERROR); ("warning", WARNING); ("notice", WARNING);
    ("info", INFO); ("debug", DEBUG) ].

(** [getattr(SyslogSeverityToPythonLevel, name).value]; [None] is an
    [AttributeError]. *)
Fixpoint enum_getattr_value (name : string) (members : list (string * Z))
  : option Z :=
  match members with
  | [] => None
  | (n, v) :: ms => if String.eqb name n then Some v
                    else enum_getattr_value name ms
  end.

(** ** Parsed messages and logging calls *)

(** The part of a parsed [SyslogMessage] the module reads: [severity],
    [msg] and [as_dict()]. *)
Record SyslogMessage := mkSyslogMessage {
  severity : SyslogSeverity;
  msg : pyval;
  as_dict : pydict
}.

(** One call into the [logging] module: [logger.log(level, msg, *args,
    **kwargs)] or [logger.exception(msg, *args)] (which sets
    [exc_info]). *)
Record LogCall := mkLogCall {
  lc_logger : string;
  lc_level : Z;
  lc_msg : pyval;
  lc_args : list pyval;
  lc_kwargs : pydict;
  lc_exc_info : bool
}.

(** [logger = logging.getLogger(__name__)] in the package
    [sentrysyslog]. *)
Definition logger_name : string := "sentrysyslog".

Definition excluded_keys : list string :=
  ["facility"; "appname"; "severity"; "msg"; "version"].

(** [value is not None and value != {} and value != []] *)
Definition non_empty (v : pyval) : bool :=
  match v with
  | PNone => false
  | PDict [] => false
  | PList [] => false
  | _ => true
  end.

Definition keep_field (kv : string * pyval) : bool :=
  non_empty (snd kv) &&
  negb (List.existsb (String.eqb (fst kv)) excluded_keys).

(** The dict comprehension building [syslog_fields]. *)
Definition syslog_fields (d : pydict) : pydict := List.filter keep_field d.

Section Transformer.

(** [syslog_rfc5424_parser.SyslogMessage.parse]; [None] is a parse
    error. *)
Variable parse : string -> option SyslogMessage.

(** [log_syslog_line(syslog_line, event_level)]: the logging calls it makes
    and the parsed message it returns. *)
Definition log_syslog_line (syslog_line : string) (event_level : Z)
  : option (list LogCall * SyslogMessage) :=
  syslog_msg <- parse syslog_line ;;
  let syslog_msg_dict := as_dict syslog_msg in
  level <- enum_getattr_value (severity_name (severity syslog_msg))
             SyslogSeverityToPythonLevel ;;
  let fields := syslog_fields syslog_msg_dict in
  let '(args, kwargs) :=
    if level >=? event_level
    then ([PDict fields], [])
    else ([], [("extra", PDict fields)]) in
  Some ([mkLogCall logger_name level (msg syslog_msg) args kwargs false],
        syslog_msg).

End Transformer.

(** ** The line loop *)

Definition newline_char : Ascii.ascii := Ascii.ascii_of_nat 10.
Definition newline : string := String newline_char EmptyString.

(** [s[:-1]] *)
Fixpoint drop_last (s : string) : string :=
  match s with
  | EmptyString => EmptyString
  | String _ EmptyString => EmptyString
  | String c r => String c (drop_last r)
  end.

(** Iterating a text file: each line is yielded with its terminating
    newline; a last line without one is yielded as it is. *)
Fixpoint lines_of_aux (acc : string) (s : string) : list string :=
  match s with
  | EmptyString =>
      match acc with EmptyString => [] | _ => [acc] end
  | String c r =>
      if Ascii.eqb c newline_char
      then (acc ++ newline)%string :: lines_of_aux EmptyString r
      else lines_of_aux (acc ++ String c EmptyString)%string r
  end.

Definition lines_of (contents : string) : list string :=
  lines_of_aux EmptyString contents.

(** [logger.exception("Exception raised while tyring to log syslog
    line:\n%s", syslog_line)] *)
Definition diagnostic (syslog_line : string) : LogCall :=
  mkLogCall logger_name ERROR
    (PStr ("Exception raised while tyring to log syslog line:" ++ newline
           ++ "%s")%string)
    [PStr syslog_line] [] true.

Section Loop.

Variable parse : string -> option SyslogMessage.

(** One iteration of the [for] loop of [run], with its [try]/[except]. *)
Definition run_line (event_level : Z) (syslog_line : string) : list LogCall :=
  match log_syslog_line parse (drop_last syslog_line) event_level with
  | Some (calls, _) => calls
  | None => [diagnostic syslog_line]
  end.

(** [run(input_file, event_level)]: the logging calls made, in order. *)
Definition run (input_file : list string) (event_level : Z) : list LogCall :=
  List.flat_map (run_line event_level) input_file.

End Loop.

(** ** The [before_send] callback *)

(** [event["logger"] == logger.name] *)
Definition is_own_logger (v : pyval) : bool :=
  match v with
  | PStr s => String.eqb s logger_name
  | _ => false
  end.

(** [event["logentry"]["params"]] where the result must support
    [.pop(key, default)], i.e. be a dict. *)
Definition logentry_params (event : pydict) : option pydict :=
  le <- Dict.lookup "logentry" event ;;
  match le with
  | PDict le' =>
      p <- Dict.lookup "params" le' ;;
      match p with PDict ps => Some ps | _ => None end
  | _ => None
  end.

(** The event after the in-place mutation of its params dict. *)
Definition with_params (ps : pydict) (event : pydict) : pydict :=
  match Dict.lookup "logentry" event with
  | Some (PDict le) =>
      Dict.set "logentry" (PDict (Dict.set "params" (PDict ps) le)) event
  | _ => event
  end.

(** [event[target] = event["logentry"]["params"].pop(key, event[target])] *)
Definition pop_param_into (key target : string) (event : pydict)
  : option pydict :=
  ps <- logentry_params event ;;
  default <- Dict.lookup target event ;;
  let '(v, ps') := Dict.pop key default ps in
  Some (Dict.set target v (with_params ps' event)).

(** [breadcrumb["timestamp"] = breadcrumb["data"].pop("timestamp",
    breadcrumb["timestamp"])] *)
Definition move_breadcrumb_timestamp (breadcrumb : pyval) : option pyval :=
  match breadcrumb with
  | PDict bd =>
      data <- Dict.lookup "data" bd ;;
      match data with
      | PDict d =>
          ts <- Dict.lookup "timestamp" bd ;;
          let '(v, d') := Dict.pop "timestamp" ts d in
          Some (PDict (Dict.set "timestamp" v (Dict.set "data" (PDict d') bd)))
      | _ => None
      end
  | _ => None
  end.

Fixpoint map_opt {A B : Type} (f : A -> option B) (xs : list A)
  : option (list B) :=
  match xs with
  | [] => Some []
  | x :: xs' => y <- f x ;; ys <- map_opt f xs' ;; Some (y :: ys)
  end.

(** [for x in v]: the items iterated, [None] when [v] is not iterable. *)
Definition py_iter (v : pyval) : option (list pyval) :=
  match v with
  | PList xs => Some xs
  | PDict kvs => Some (List.map (fun kv => PStr (fst kv)) kvs)
  | PStr s =>
      Some (List.map (fun c => PStr (String c EmptyString))
              (list_ascii_of_string s))
  | _ => None
  end.

(** [for breadcrumb in breadcrumbs: ...]; breadcrumbs are mutated in
    place, so a list is rebuilt with the updated breadcrumbs. *)
Definition process_breadcrumbs (breadcrumbs : pyval) : option pyval :=
  match breadcrumbs with
  | PList xs => xs' <- map_opt move_breadcrumb_timestamp xs ;; Some (PList xs')
  | _ =>
      xs <- py_iter breadcrumbs ;;
      _ <- map_opt move_breadcrumb_timestamp xs ;;
      Some breadcrumbs
  end.

(** [process_syslog_fields(event, hint)]: the event it returns; [None] when
    it raises. *)
Definition process_syslog_fields (event : pydict) (hint : pydict)
  : option pydict :=
  lg <- Dict.lookup "logger" event ;;
  if is_own_logger lg then Some event else
  let e1 := Dict.set "platform" (PStr "syslog") event in
  e2 <- pop_param_into "hostname" "server_name" e1 ;;
  e3 <- pop_param_into "timestamp" "timestamp" e2 ;;
  bcs' <- process_breadcrumbs (Dict.get "breadcrumbs" (PList []) e3) ;;
  Some (if Dict.mem "breadcrumbs" e3 then Dict.set "breadcrumbs" bcs' e3
        else e3).

(** ** The example line of the specification

    [<34>1 2021-01-01T00:00:00Z myhost myapp - - - message text], and what
    the parser makes of it ([<34>] is facility [auth], severity [crit]; the
    nil values [-] become [None] and an empty structured-data dict). *)
Definition example_line : string :=
  "<34>1 2021-01-01T00:00:00Z myhost myapp - - - message text".

Definition example_msg : SyslogMessage :=
  mkSyslogMessage crit (PStr "message text")
    [ ("facility", PStr "auth"); ("severity", PStr "crit");
      ("version", PInt 1); ("timestamp", PStr "2021-01-01T00:00:00Z");
      ("hostname", PStr "myhost"); ("appname", PStr "myapp");
      ("procid", PNone); ("msgid", PNone); ("msg", PStr "message text");
      ("sd", PDict []) ].

(** A parser that knows only the example line. *)
Definition example_parse (line : string) : option SyslogMessage :=
  if String.eqb line example_line then Some example_msg else None.

Definition bad_line : string := ("not a syslog line" ++ newline)%string.

(** ** The Sentry SDK's side

    The payload the SDK hands to [before_send] for a record made by a
    logging call at or above the event level: [logging.LogRecord] turns a
    single non-empty mapping argument into [record.args], the logging
    integration puts it under [logentry.params] and names the logger, and
    the client adds [timestamp], [server_name], [platform] and the
    breadcrumbs. *)
Definition record_args (args : list pyval) : pyval :=
  match args with
  | [PDict (_ :: _) as d] => d
  | _ => PList args
  end.

Definition sdk_event (c : LogCall) (server_name now : string) : pydict :=
  [ ("level", PInt (lc_level c));
    ("logger", PStr (lc_logger c));
    ("logentry", PDict [("message", lc_msg c);
                        ("params", record_args (lc_args c))]);
    ("timestamp", PStr now);
    ("server_name", PStr server_name);
    ("platform", PStr "python");
    ("breadcrumbs", PList []) ].

(** ** Payload shapes [process_syslog_fields] handles without raising *)

(** A breadcrumb is a dict with a [data] dict and a [timestamp]. *)
Definition breadcrumb_ok (b : pyval) : bool :=
  match b with
  | PDict bd =>
      match Dict.lookup "data" bd with Some (PDict _) => true | _ => false end
      && Dict.mem "timestamp" bd
  | _ => false
  end.

(** [event["breadcrumbs"]] is a list of such breadcrumbs, or an empty
    iterable. *)
Definition breadcrumbs_ok (v : pyval) : bool :=
  match v with
  | PList xs => List.forallb breadcrumb_ok xs
  | PDict [] => true
  | PStr EmptyString => true
  | _ => false
  end.

Definition rewritable (event : pydict) : bool :=
  match Dict.lookup "logger" event with
  | None => false
  | Some lg =>
      is_own_logger lg
      || (match logentry_params event with Some _ => true | None => false end
          && Dict.mem "server_name" event
          && Dict.mem "timestamp" event
          && match Dict.lookup "breadcrumbs" event with
             | None => true
             | Some v => breadcrumbs_ok v
             end)
  end.

(** ** What a pass of [process_syslog_fields] may change in a breadcrumb

    A breadcrumb keeps every entry but [data] and [timestamp], and its
    [data] dict loses only its [timestamp] entry. *)
Definition breadcrumb_frame (b b' : pyval) : Prop :=
  exists bd d bd',
    b = PDict bd /\ Dict.lookup "data" bd = Some (PDict d) /\ b' = PDict bd' /\
    (forall k, k <> "data" -> k <> "timestamp" ->
       Dict.lookup k bd' = Dict.lookup k bd) /\
    Dict.lookup "data" bd' = Some (PDict (Dict.remove "timestamp" d)).

(** A list of breadcrumbs is updated breadcrumb by breadcrumb; any other
    iterable is left as it is. *)
Definition breadcrumbs_frame (v v' : pyval) : Prop :=
  match v, v' with
  | PList xs, PList ys => Forall2 breadcrumb_frame xs ys
  | _, _ => v' = v
  end.

(** ** A payload for the example line

    The call the example line makes at the default event level, as the
    original per-facility logger [auth.myapp] would have made it, and the
    payload the SDK builds from it with one earlier breadcrumb attached. *)
Definition capture_host : string := "collector".
Definition capture_time : string := "2026-10-15T08:00:00Z".

Definition example_facility_call : LogCall :=
  mkLogCall "auth.myapp" CRITICAL (PStr "message text")
    [PDict (syslog_fields (as_dict example_msg))] [] false.

Definition example_breadcrumb : pyval :=
  PDict [ ("type", PStr "log"); ("level", PStr "info");
          ("timestamp", PStr "2026-10-15T07:59:59Z");
          ("data", PDict [ ("timestamp", PStr "2020-12-31T23:59:59Z");
                           ("hostname", PStr "myhost") ]) ].

Definition example_event : pydict :=
  Dict.set "breadcrumbs" (PList [example_breadcrumb])
    (sdk_event example_facility_call capture_host capture_time).

Definition example_event_rewritten : pydict :=
  Eval vm_compute in
    match process_syslog_fields example_event [] with
    | Some e => e
    | None => []
    end.

(** ** [logging_level_type], the type of the [--event-level] option *)

(** The attributes of Python's [logging] module that are [int]s, [bool]s
    included ([isinstance(True, int)] holds).  Every other name is either
    missing ([AttributeError]) or a function, class, module, string, float
    or handler, which is not an [int]; [logging_level_type] raises the
    same [ArgumentTypeError] on both, so both are [None] here. *)
Definition logging_int_attrs : list (string * pyval) :=
  [ ("CRITICAL", PInt CRITICAL); ("FATAL", PInt CRITICAL);
    ("ERROR", PInt ERROR); ("WARNING", PInt WARNING);
    ("WARN", PInt WARNING); ("INFO", PInt INFO); ("DEBUG", PInt DEBUG);
    ("NOTSET", PInt 0);
    ("raiseExceptions", PBool true); ("logThreads", PBool true);
    ("logMultiprocessing", PBool true); ("logProcesses", PBool true);
    ("logAsyncioTasks", PBool true) ].

(** [logging._levelToName] *)
Definition levelToName : list (Z * string) :=
  [ (CRITICAL, "CRITICAL"); (ERROR, "ERROR"); (WARNING, "WARNING");
    (INFO, "INFO"); (DEBUG, "DEBUG"); (0, "NOTSET") ].

Fixpoint level_lookup (z : Z) (tbl : list (Z * string)) : option string :=
  match tbl with
  | [] => None
  | (z', n) :: tbl' => if Z.eqb z z' then Some n else level_lookup z tbl'
  end.

(** [logging.getLevelName(level)] for an [int] (or [bool]) level: the
    registered name, else ["Level %s" % level]. *)
Definition getLevelName (level : pyval) : string :=
  match level with
  | PInt z =>
      match level_lookup z levelToName with
      | Some n => n
      | None => "Level " ++ DecimalString.NilZero.string_of_int (Z.to_int z)
      end
  | PBool b =>
      match level_lookup (if b then 1 else 0) levelToName with
      | Some n => n
      | None => if b then "Level True" else "Level False"
      end
  | _ => ""
  end.

(** [isinstance(level, int)] *)
Definition is_int (v : pyval) : bool :=
  match v with PInt _ | PBool _ => true | _ => false end.

(** [logging_level_type(level_name)]: the level, or [None] for the
    [argparse.ArgumentTypeError] it raises. *)
Definition logging_level_type (level_name : string) : option pyval :=
  level <- Dict.lookup level_name logging_int_attrs ;;
  if negb (is_int level) then None else
  if negb (String.eqb (getLevelName level) level_name) then None else
  Some level.

(** [parser.get_default("event_level")] *)
Definition default_event_level : Z := ERROR.

(** ** Invariants used in the proofs about [process_syslog_fields] *)

(** Every entry of [d] under key [k] holds [v]. *)
Definition holds (k : string) (v : pyval) (d : pydict) : Prop :=
  Forall (fun kv => fst kv = k -> snd kv = v) d.

(** The logentry of [e] holds the params [ps] in every entry. *)
Definition params_settled (ps : pydict) (e : pydict) : Prop :=
  exists le, holds "logentry" (PDict le) e /\ Dict.lookup "logentry" e <> None /\
             holds "params" (PDict ps) le /\ Dict.lookup "params" le <> None.

(** ** Properties *)

(** The severity table lookup never fails. *)
Lemma severity_level_total (s : SyslogSeverity) :
  exists level,
    enum_getattr_value (severity_name s) SyslogSeverityToPythonLevel
    = Some level.
Proof. destruct s; eexists; reflexivity. Qed.

(** C1: every parsed line makes exactly one logging call, at the mapped
    level, through the module logger, with the message text as template;
    at or above the event level the field projection is the single
    positional argument and no keyword is passed, below it the projection
    is passed only as [extra]. *)
Theorem log_syslog_line_one_call_dispatch
  (parse : string -> option SyslogMessage) (line : string)
  (event_level : Z) (m : SyslogMessage) :
  parse line = Some m ->
  exists c level,
    log_syslog_line parse line event_level = Some ([c], m) /\
    enum_getattr_value (severity_name (severity m))
      SyslogSeverityToPythonLevel = Some level /\
    lc_logger c = logger_name /\ lc_level c = level /\
    lc_msg c = msg m /\ lc_exc_info c = false /\
    (level >= event_level ->
       lc_args c = [PDict (syslog_fields (as_dict m))] /\ lc_kwargs c = []) /\
    (level < event_level ->
       lc_args c = [] /\
       lc_kwargs c = [("extra", PDict (syslog_fields (as_dict m)))]).
Proof.
  intros Hp.
  destruct (severity_level_total (severity m)) as [level Hl].
  unfold log_syslog_line. rewrite Hp, Hl.
  destruct (level >=? event_level) eqn:Hge.
  - apply Z.geb_le in Hge.
    eexists; exists level; repeat split; try reflexivity; try assumption;
      intros; lia.
  - rewrite Z.geb_leb in Hge; apply Z.leb_gt in Hge.
    eexists; exists level; repeat split; try reflexivity; try assumption;
      intros; lia.
Qed.

Lemma log_syslog_line_one_call_dispatch_witness :
  example_parse example_line = Some example_msg /\
  exists c level,
    log_syslog_line example_parse example_line ERROR = Some ([c], example_msg) /\
    enum_getattr_value (severity_name (severity example_msg))
      SyslogSeverityToPythonLevel = Some level /\
    lc_logger c = logger_name /\ lc_level c = level /\
    lc_msg c = msg example_msg /\ lc_exc_info c = false /\
    (level >= ERROR ->
       lc_args c = [PDict (syslog_fields (as_dict example_msg))] /\
       lc_kwargs c = []) /\
    (level < ERROR ->
       lc_args c = [] /\
       lc_kwargs c = [("extra", PDict (syslog_fields (as_dict example_msg)))]).
Proof.
  split; [reflexivity |].
  apply (log_syslog_line_one_call_dispatch example_parse example_line ERROR
           example_msg).
  reflexivity.
Defined.

(** C3: the severity mapping is total, with emerg, alert and crit at
    CRITICAL, err at ERROR, warning and notice at WARNING, info at INFO and
    debug at DEBUG. *)
Theorem severity_mapping_table :
  (forall s, exists level,
     enum_getattr_value (severity_name s) SyslogSeverityToPythonLevel
     = Some level) /\
  enum_getattr_value (severity_name emerg) SyslogSeverityToPythonLevel = Some CRITICAL /\
  enum_getattr_value (severity_name alert) SyslogSeverityToPythonLevel = Some CRITICAL /\
  enum_getattr_value (severity_name crit) SyslogSeverityToPythonLevel = Some CRITICAL /\
  enum_getattr_value (severity_name err) SyslogSeverityToPythonLevel = Some ERROR /\
  enum_getattr_value (severity_name warning) SyslogSeverityToPythonLevel = Some WARNING /\
  enum_getattr_value (severity_name notice) SyslogSeverityToPythonLevel = Some WARNING /\
  enum_getattr_value (severity_name info) SyslogSeverityToPythonLevel = Some INFO /\
  enum_getattr_value (severity_name debug) SyslogSeverityToPythonLevel = Some DEBUG.
Proof.
  split; [exact severity_level_total |].
  repeat split.
Qed.

(** C4: a key-value pair is in the field projection exactly when it is in
    the parsed message's dict, its key is not one of facility, appname,
    severity, msg, version, and its value is not [None], [{}] or [[]]. *)
Theorem syslog_fields_spec (d : pydict) (k : string) (v : pyval) :
  In (k, v) (syslog_fields d) <->
  In (k, v) d /\ ~ In k excluded_keys /\
  v <> PNone /\ v <> PDict [] /\ v <> PList [].
Proof.
  unfold syslog_fields, keep_field. rewrite filter_In. cbn [fst snd].
  rewrite andb_true_iff, negb_true_iff.
  assert (Hex : List.existsb (String.eqb k) excluded_keys = false
                <-> ~ In k excluded_keys).
  { rewrite <- not_true_iff_false, existsb_exists.
    split; intros H H'; apply H.
    - exists k. split; [exact H' | apply String.eqb_refl].
    - destruct H' as [x [Hin Heq]]. apply String.eqb_eq in Heq.
      subst. exact Hin. }
  rewrite Hex.
  assert (Hne : non_empty v = true <->
                v <> PNone /\ v <> PDict [] /\ v <> PList []).
  { destruct v as [| | | | [|] | [|]]; simpl;
      split; intros H; try discriminate; try (repeat split; discriminate);
      try reflexivity; destruct H as [H1 [H2 H3]]; congruence. }
  rewrite Hne. tauto.
Qed.

(** A line the transformer handles makes exactly one call, not a
    diagnostic one. *)
Lemma run_line_parsed (parse : string -> option SyslogMessage)
  (event_level : Z) (l : string) :
  parse (drop_last l) <> None ->
  exists c, run_line parse event_level l = [c] /\ lc_exc_info c = false.
Proof.
  intros Hp. destruct (parse (drop_last l)) as [m|] eqn:Hm; [|congruence].
  destruct (log_syslog_line_one_call_dispatch parse (drop_last l)
              event_level m Hm) as [c [level [Hc [_ [_ [_ [_ [Hx _]]]]]]]].
  exists c. unfold run_line. rewrite Hc. auto.
Qed.

Lemma run_app (parse : string -> option SyslogMessage) (event_level : Z)
  (xs ys : list string) :
  run parse (xs ++ ys) event_level
  = (run parse xs event_level ++ run parse ys event_level)%list.
Proof. unfold run. apply flat_map_app. Qed.

Lemma run_all_parsed (parse : string -> option SyslogMessage)
  (event_level : Z) (ls : list string) :
  Forall (fun l => parse (drop_last l) <> None) ls ->
  length (List.filter (fun c => negb (lc_exc_info c))
            (run parse ls event_level)) = length ls /\
  List.filter lc_exc_info (run parse ls event_level) = [].
Proof.
  induction 1 as [|l ls Hl Hls [IH1 IH2]]; [split; reflexivity |].
  destruct (run_line_parsed parse event_level l Hl) as [c [Hc Hx]].
  change (run parse (l :: ls) event_level)
    with (run parse ([l] ++ ls) event_level).
  rewrite run_app. unfold run at 1. simpl. rewrite app_nil_r, Hc.
  simpl. rewrite Hx. simpl. auto.
Qed.

Lemma filter_app' {A : Type} (f : A -> bool) (xs ys : list A) :
  List.filter f (xs ++ ys) = (List.filter f xs ++ List.filter f ys)%list.
Proof.
  induction xs as [|x xs IH]; simpl; [reflexivity |].
  destruct (f x); simpl; rewrite IH; reflexivity.
Qed.

(** C5: with one line whose transformation raises between lines that are
    handled, the loop goes on to the end of the input: it makes the calls
    of every other line (one forwarded record each, N-1 in all) and a
    single diagnostic call, made through [logger.exception] with the raw
    line as its argument. *)
Theorem run_contains_bad_line (parse : string -> option SyslogMessage)
  (event_level : Z) (pre : list string) (bad : string) (post : list string) :
  Forall (fun l => parse (drop_last l) <> None) pre ->
  Forall (fun l => parse (drop_last l) <> None) post ->
  parse (drop_last bad) = None ->
  run parse (pre ++ bad :: post) event_level
  = (run parse pre event_level ++ diagnostic bad
       :: run parse post event_level)%list /\
  length (List.filter (fun c => negb (lc_exc_info c))
            (run parse (pre ++ bad :: post) event_level))
  = (length pre + length post)%nat /\
  List.filter lc_exc_info (run parse (pre ++ bad :: post) event_level)
  = [diagnostic bad] /\
  lc_args (diagnostic bad) = [PStr bad].
Proof.
  intros Hpre Hpost Hbad.
  assert (Hrun : run parse (pre ++ bad :: post) event_level
                 = (run parse pre event_level ++ diagnostic bad
                      :: run parse post event_level)%list).
  { rewrite run_app. f_equal.
    change (bad :: post) with ([bad] ++ post)%list. rewrite run_app.
    unfold run at 1. simpl. unfold run_line at 1.
    unfold log_syslog_line. rewrite Hbad. reflexivity. }
  destruct (run_all_parsed parse event_level pre Hpre) as [Hp1 Hp2].
  destruct (run_all_parsed parse event_level post Hpost) as [Hq1 Hq2].
  split; [exact Hrun |]. rewrite Hrun.
  change (diagnostic bad :: run parse post event_level)
    with ([diagnostic bad] ++ run parse post event_level)%list.
  rewrite !filter_app', !length_app, Hp1, Hq1, Hp2, Hq2. simpl.
  repeat split; lia.
Qed.

(** C8: an event logged through the module's own logger is returned as it
    is. *)
Theorem process_syslog_fields_own_logger (event hint : pydict) :
  Dict.lookup "logger" event = Some (PStr logger_name) ->
  process_syslog_fields event hint = Some event.
Proof.
  intros H. unfold process_syslog_fields. rewrite H. reflexivity.
Qed.

Lemma process_syslog_fields_own_logger_witness :
  Dict.lookup "logger" [("logger", PStr logger_name); ("platform", PStr "python")]
    = Some (PStr logger_name) /\
  process_syslog_fields [("logger", PStr logger_name); ("platform", PStr "python")] []
    = Some [("logger", PStr logger_name); ("platform", PStr "python")].
Proof.
  split; [reflexivity |].
  apply process_syslog_fields_own_logger. reflexivity.
Defined.


Lemma run_contains_bad_line_witness :
  Forall (fun l => example_parse (drop_last l) <> None)
    [(example_line ++ newline)%string] /\
  example_parse (drop_last bad_line) = None /\
  run example_parse
    ([(example_line ++ newline)%string] ++ bad_line
       :: [(example_line ++ newline)%string])%list ERROR
  = (run example_parse [(example_line ++ newline)%string] ERROR
       ++ diagnostic bad_line
       :: run example_parse [(example_line ++ newline)%string] ERROR)%list /\
  length (List.filter (fun c => negb (lc_exc_info c))
            (run example_parse
               ([(example_line ++ newline)%string] ++ bad_line
                  :: [(example_line ++ newline)%string])%list ERROR))
  = (length [(example_line ++ newline)%string]
     + length [(example_line ++ newline)%string])%nat /\
  List.filter lc_exc_info
    (run example_parse
       ([(example_line ++ newline)%string] ++ bad_line
          :: [(example_line ++ newline)%string])%list ERROR)
  = [diagnostic bad_line] /\
  lc_args (diagnostic bad_line) = [PStr bad_line].
Proof.
  assert (Hok : Forall (fun l => example_parse (drop_last l) <> None)
                  [(example_line ++ newline)%string]).
  { constructor; [vm_compute; discriminate | constructor]. }
  split; [exact Hok |]. split; [reflexivity |].
  apply run_contains_bad_line; [exact Hok | exact Hok | reflexivity].
Defined.

(** [s[:-1]] removes the newline of a line that has one. *)
Lemma drop_last_newline (s : string) :
  drop_last (s ++ newline) = s.
Proof.
  induction s as [|c s IH]; [reflexivity |].
  simpl. rewrite IH. destruct s; reflexivity.
Qed.

(** C9 (the failing input): when the input ends with a line that has no
    newline, here the example line, [run] still removes its last
    character, so the transformer receives [... message tex]. *)
Theorem run_final_line_truncated :
  lines_of example_line = [example_line] /\
  drop_last example_line
    = "<34>1 2021-01-01T00:00:00Z myhost myapp - - - message tex" /\
  drop_last example_line <> example_line /\
  forall (parse : string -> option SyslogMessage) (event_level : Z),
    run parse (lines_of example_line) event_level
    = match log_syslog_line parse
              "<34>1 2021-01-01T00:00:00Z myhost myapp - - - message tex"
              event_level with
      | Some (calls, _) => calls
      | None => [diagnostic example_line]
      end.
Proof.
  assert (Hl : lines_of example_line = [example_line]) by reflexivity.
  assert (Hd : drop_last example_line
               = "<34>1 2021-01-01T00:00:00Z myhost myapp - - - message tex")
    by reflexivity.
  split; [exact Hl |]. split; [exact Hd |]. split.
  - rewrite Hd. discriminate.
  - intros parse event_level. rewrite Hl. unfold run. simpl.
    unfold run_line. rewrite Hd. destruct (log_syslog_line _ _ _) as [[]|];
      rewrite ?app_nil_r; reflexivity.
Qed.

(** ** Dict facts *)

(** Distinct literal keys. *)
Ltac keys_neq := let H := fresh in intros H; discriminate H.

Module DictFacts.
Import Dict.

Lemma lookup_app (k : string) (d1 d2 : pydict) :
  lookup k (List.app d1 d2)
  = match lookup k d1 with Some v => Some v | None => lookup k d2 end.
Proof.
  induction d1 as [|[k' v'] d1 IH]; simpl; [reflexivity |].
  destruct (String.eqb k k'); [reflexivity | exact IH].
Qed.

Lemma lookup_replace_eq (k : string) (v : pyval) (d : pydict) :
  lookup k d <> None ->
  lookup k (List.map (fun kv => if String.eqb k (fst kv) then (k, v) else kv) d)
  = Some v.
Proof.
  induction d as [|[k' v'] d IH]; simpl; [congruence |].
  destruct (String.eqb k k') eqn:E; simpl.
  - rewrite String.eqb_refl. reflexivity.
  - rewrite E. exact IH.
Qed.

Lemma lookup_replace_neq (k k' : string) (v : pyval) (d : pydict) :
  k <> k' ->
  lookup k (List.map (fun kv => if String.eqb k' (fst kv) then (k', v) else kv) d)
  = lookup k d.
Proof.
  intros Hne.
  induction d as [|[k0 v0] d IH]; simpl; [reflexivity |].
  destruct (String.eqb k' k0) eqn:E; simpl.
  - apply String.eqb_eq in E. subst k0.
    apply String.eqb_neq in Hne. rewrite Hne. exact IH.
  - rewrite IH. reflexivity.
Qed.

Lemma lookup_set_eq (k : string) (v : pyval) (d : pydict) :
  lookup k (set k v d) = Some v.
Proof.
  unfold set, mem. destruct (lookup k d) eqn:E.
  - apply lookup_replace_eq. congruence.
  - rewrite lookup_app, E. simpl. rewrite String.eqb_refl. reflexivity.
Qed.

Lemma lookup_set_neq (k k' : string) (v : pyval) (d : pydict) :
  k <> k' -> lookup k (set k' v d) = lookup k d.
Proof.
  intros Hne. unfold set, mem. destruct (lookup k' d).
  - apply lookup_replace_neq. exact Hne.
  - rewrite lookup_app. destruct (lookup k d); [reflexivity |].
    simpl. apply String.eqb_neq in Hne. rewrite Hne. reflexivity.
Qed.

Lemma lookup_remove_eq (k : string) (d : pydict) :
  lookup k (remove k d) = None.
Proof.
  induction d as [|[k' v'] d IH]; simpl; [reflexivity |].
  destruct (String.eqb k k') eqn:E; simpl; [exact IH |].
  rewrite E. exact IH.
Qed.

Lemma lookup_remove_neq (k k' : string) (d : pydict) :
  k <> k' -> lookup k (remove k' d) = lookup k d.
Proof.
  intros Hne.
  induction d as [|[k0 v0] d IH]; simpl; [reflexivity |].
  destruct (String.eqb k' k0) eqn:E; simpl.
  - apply String.eqb_eq in E. subst k0.
    apply String.eqb_neq in Hne. rewrite Hne. exact IH.
  - rewrite IH. reflexivity.
Qed.

Lemma remove_absent (k : string) (d : pydict) :
  lookup k d = None -> remove k d = d.
Proof.
  induction d as [|[k' v'] d IH]; simpl; [reflexivity |].
  destruct (String.eqb k k'); [discriminate |]. simpl.
  intros H. rewrite IH by exact H. reflexivity.
Qed.

Lemma pop_remove (k : string) (dflt : pyval) (d : pydict) :
  snd (pop k dflt d) = remove k d.
Proof.
  unfold pop. destruct (lookup k d) eqn:E; [reflexivity |].
  simpl. symmetry. apply remove_absent. exact E.
Qed.

Lemma pop_absent (k : string) (dflt : pyval) (d : pydict) :
  lookup k d = None -> pop k dflt d = (dflt, d).
Proof. unfold pop. intros ->. reflexivity. Qed.

Lemma lookup_none_keys (k : string) (d : pydict) :
  lookup k d = None -> Forall (fun kv => fst kv <> k) d.
Proof.
  induction d as [|[k' v'] d IH]; simpl; [constructor |].
  destruct (String.eqb k k') eqn:E; [discriminate |].
  intros H. constructor; [| exact (IH H)].
  simpl. intros ->. rewrite String.eqb_refl in E. discriminate.
Qed.

Lemma holds_set (k : string) (v : pyval) (d : pydict) :
  holds k v (set k v d).
Proof.
  unfold holds, set, mem. destruct (lookup k d) eqn:Em.
  - apply Forall_forall. intros [k0 v0] Hin. apply in_map_iff in Hin.
    destruct Hin as [[k1 v1] [Heq _]]. simpl in *.
    destruct (String.eqb k k1) eqn:E; injection Heq as <- <-; [reflexivity |].
    intros ->. rewrite String.eqb_refl in E. discriminate.
  - apply Forall_app. split.
    + apply lookup_none_keys in Em. revert Em. apply Forall_impl.
      intros kv Hne Heq. contradiction.
    + constructor; [reflexivity | constructor].
Qed.

Lemma holds_set_neq (k k' : string) (v v' : pyval) (d : pydict) :
  k <> k' -> holds k v d -> holds k v (set k' v' d).
Proof.
  unfold holds, set, mem. intros Hne H. destruct (lookup k' d).
  - apply Forall_map. revert H. apply Forall_impl.
    intros [k0 v0] Hkv. simpl. destruct (String.eqb k' k0) eqn:E.
    + simpl. intros ->. contradiction.
    + exact Hkv.
  - apply Forall_app. split; [exact H |].
    constructor; [| constructor]. simpl. intros ->. contradiction.
Qed.

Lemma holds_lookup (k : string) (v : pyval) (d : pydict) :
  holds k v d -> lookup k d <> None -> lookup k d = Some v.
Proof.
  unfold holds. induction 1 as [|[k0 v0] d Hkv Hd IH]; simpl; [congruence |].
  destruct (String.eqb k k0) eqn:E.
  - apply String.eqb_eq in E. subst k0. intros _. f_equal. apply Hkv. reflexivity.
  - exact IH.
Qed.

Lemma set_holds_id (k : string) (v : pyval) (d : pydict) :
  holds k v d -> lookup k d <> None -> set k v d = d.
Proof.
  intros H Hl. unfold set, mem. destruct (lookup k d); [| congruence].
  clear Hl. unfold holds in H.
  induction H as [|[k0 v0] d Hkv Hd IH]; simpl; [reflexivity |].
  rewrite IH. destruct (String.eqb k k0) eqn:E; [| reflexivity].
  apply String.eqb_eq in E. subst k0. simpl in Hkv.
  rewrite (Hkv eq_refl). reflexivity.
Qed.

End DictFacts.

(** ** Facts about [process_syslog_fields] *)

Module RewriterFacts.
Import Dict DictFacts.


Lemma lookup_with_params_neq (k : string) (ps : pydict) (e : pydict) :
  k <> "logentry" -> lookup k (with_params ps e) = lookup k e.
Proof.
  intros Hne. unfold with_params.
  destruct (lookup "logentry" e) as [[]|]; try reflexivity.
  apply lookup_set_neq. exact Hne.
Qed.

Lemma holds_with_params (k : string) (v : pyval) (ps e : pydict) :
  k <> "logentry" -> holds k v e -> holds k v (with_params ps e).
Proof.
  intros Hne H. unfold with_params.
  destruct (lookup "logentry" e) as [[]|]; try exact H.
  apply holds_set_neq; assumption.
Qed.

Lemma logentry_params_set_neq (k : string) (v : pyval) (e : pydict) :
  k <> "logentry" -> logentry_params (set k v e) = logentry_params e.
Proof.
  intros Hne. unfold logentry_params. rewrite lookup_set_neq by congruence.
  reflexivity.
Qed.

Lemma logentry_params_with_params (ps : pydict) (e : pydict) :
  logentry_params e <> None -> logentry_params (with_params ps e) = Some ps.
Proof.
  unfold logentry_params, with_params.
  destruct (lookup "logentry" e) as [[]|]; try congruence.
  intros _. rewrite lookup_set_eq, lookup_set_eq. reflexivity.
Qed.

Lemma params_settled_with_params (ps : pydict) (e : pydict) :
  logentry_params e <> None -> params_settled ps (with_params ps e).
Proof.
  unfold logentry_params, with_params.
  destruct (lookup "logentry" e) as [[]|]; try congruence. intros _.
  eexists. split; [apply holds_set |]. split; [rewrite lookup_set_eq; congruence |].
  split; [apply holds_set | rewrite lookup_set_eq; congruence].
Qed.

Lemma params_settled_set_neq (ps : pydict) (k : string) (v : pyval)
  (e : pydict) :
  k <> "logentry" -> params_settled ps e -> params_settled ps (set k v e).
Proof.
  intros Hne [le [H1 [H2 [H3 H4]]]]. exists le.
  rewrite lookup_set_neq by congruence.
  repeat split; try assumption. apply holds_set_neq; [congruence | assumption].
Qed.

Lemma with_params_settled (ps : pydict) (e : pydict) :
  params_settled ps e -> with_params ps e = e /\ logentry_params e = Some ps.
Proof.
  intros [le [H1 [H2 [H3 H4]]]].
  unfold with_params, logentry_params.
  rewrite (holds_lookup _ _ _ H1 H2), (holds_lookup _ _ _ H3 H4).
  rewrite (set_holds_id _ _ _ H3 H4). rewrite (set_holds_id _ _ _ H1 H2).
  split; reflexivity.
Qed.

(** [pop_param_into] on an event with params. *)
Lemma pop_param_into_some (key target : string) (e : pydict) (ps : pydict)
  (dflt : pyval) :
  target <> "logentry" ->
  logentry_params e = Some ps -> lookup target e = Some dflt ->
  pop_param_into key target e
  = Some (set target (fst (pop key dflt ps))
            (with_params (remove key ps) e)).
Proof.
  intros Ht Hp Hd. unfold pop_param_into. rewrite Hp, Hd.
  rewrite <- (pop_remove key dflt ps). destruct (pop key dflt ps). reflexivity.
Qed.

Lemma pop_param_into_none (key target : string) (e : pydict) :
  pop_param_into key target e = None <->
  logentry_params e = None \/ lookup target e = None.
Proof.
  unfold pop_param_into.
  destruct (logentry_params e); [| tauto].
  destruct (lookup target e); [| tauto].
  destruct (pop key p0 p). split; [discriminate | intros [H|H]; discriminate].
Qed.

Lemma lookup_with_params_logentry (ps : pydict) (e : pydict) :
  lookup "logentry" (with_params ps e)
  = match lookup "logentry" e with
    | Some (PDict le) => Some (PDict (set "params" (PDict ps) le))
    | o => o
    end.
Proof.
  unfold with_params.
  destruct (lookup "logentry" e) as [[]|] eqn:E; try (rewrite E; reflexivity).
  apply lookup_set_eq.
Qed.

(** The first pass of [process_syslog_fields] over an event of another
    logger, written out step by step. *)
Lemma process_syslog_fields_unfold (e hint : pydict) (lg : pyval) :
  lookup "logger" e = Some lg -> is_own_logger lg = false ->
  process_syslog_fields e hint
  = (ps <- logentry_params e ;;
     sn <- lookup "server_name" e ;;
     ts <- lookup "timestamp" e ;;
     let e2 := set "server_name" (fst (pop "hostname" sn ps))
                 (with_params (remove "hostname" ps)
                    (set "platform" (PStr "syslog") e)) in
     let e3 := set "timestamp"
                 (fst (pop "timestamp" ts (remove "hostname" ps)))
                 (with_params (remove "timestamp" (remove "hostname" ps)) e2) in
     bcs' <- process_breadcrumbs (get "breadcrumbs" (PList []) e) ;;
     Some (if mem "breadcrumbs" e then set "breadcrumbs" bcs' e3 else e3)).
Proof.
  intros Hl Ho. unfold process_syslog_fields. rewrite Hl, Ho.
  destruct (logentry_params e) as [ps|] eqn:Hp.
  2:{ assert (H : pop_param_into "hostname" "server_name"
                    (set "platform" (PStr "syslog") e) = None).
      { apply pop_param_into_none. left.
        rewrite logentry_params_set_neq by keys_neq. exact Hp. }
      rewrite H. reflexivity. }
  destruct (lookup "server_name" e) as [sn|] eqn:Hs.
  2:{ assert (H : pop_param_into "hostname" "server_name"
                    (set "platform" (PStr "syslog") e) = None).
      { apply pop_param_into_none. right.
        rewrite lookup_set_neq by keys_neq. exact Hs. }
      rewrite H. reflexivity. }
  rewrite (pop_param_into_some "hostname" "server_name" _ ps sn);
    [| keys_neq
     | rewrite logentry_params_set_neq by keys_neq; exact Hp
     | rewrite lookup_set_neq by keys_neq; exact Hs ].
  set (e2 := set "server_name" _ _).
  assert (Hp2 : logentry_params e2 = Some (remove "hostname" ps)).
  { unfold e2. rewrite logentry_params_set_neq by keys_neq.
    apply logentry_params_with_params.
    rewrite logentry_params_set_neq by keys_neq. congruence. }
  assert (Ht2 : forall k, k <> "server_name" -> k <> "logentry" ->
                k <> "platform" -> lookup k e2 = lookup k e).
  { intros k H1 H2 H3. unfold e2.
    rewrite lookup_set_neq, lookup_with_params_neq, lookup_set_neq
      by assumption. reflexivity. }
  destruct (lookup "timestamp" e) as [ts|] eqn:Ht.
  2:{ assert (H : pop_param_into "timestamp" "timestamp" e2 = None).
      { apply pop_param_into_none. right.
        rewrite Ht2 by keys_neq. exact Ht. }
      rewrite H. reflexivity. }
  rewrite (pop_param_into_some "timestamp" "timestamp" e2
             (remove "hostname" ps) ts)
;
    [| keys_neq | exact Hp2 | rewrite Ht2 by keys_neq; exact Ht].
  set (e3 := set "timestamp" _ _).
  assert (Hb : lookup "breadcrumbs" e3 = lookup "breadcrumbs" e).
  { unfold e3. rewrite lookup_set_neq, lookup_with_params_neq by keys_neq.
    apply Ht2; keys_neq. }
  unfold get, mem. rewrite Hb. reflexivity.
Qed.

End RewriterFacts.

Module BreadcrumbFacts.
Import Dict DictFacts.

Ltac iff_cases := split; intros; simpl in *; first [reflexivity | congruence].

Lemma move_breadcrumb_ok (b : pyval) :
  move_breadcrumb_timestamp b <> None <-> breadcrumb_ok b = true.
Proof.
  destruct b as [| | | | | bd]; simpl; try (iff_cases).
  destruct (lookup "data" bd) as [[| | | | | d]|];
    try (iff_cases).
  unfold mem. destruct (lookup "timestamp" bd) as [ts|]; simpl;
    [| iff_cases].
  destruct (pop "timestamp" ts d). iff_cases.
Qed.

Lemma map_opt_ok {A B : Type} (f : A -> option B) (p : A -> bool)
  (xs : list A) :
  (forall x, In x xs -> (f x <> None <-> p x = true)) ->
  map_opt f xs <> None <-> List.forallb p xs = true.
Proof.
  induction xs as [|x xs IH]; intros Hfp; simpl; [split; [reflexivity | discriminate] |].
  rewrite andb_true_iff, <- (Hfp x (or_introl eq_refl)).
  rewrite <- IH by (intros y Hy; apply Hfp; right; exact Hy).
  destruct (f x); [| split; [congruence | intros [H _]; congruence]].
  destruct (map_opt f xs); split; try congruence.
  - intros _. split; congruence.
  - intros [_ H]. exact H.
Qed.

Lemma map_opt_str_none (xs : list pyval) :
  xs <> [] -> (forall x, In x xs -> exists s, x = PStr s) ->
  map_opt move_breadcrumb_timestamp xs = None.
Proof.
  destruct xs as [|x xs]; [congruence |]. intros _ H.
  destruct (H x (or_introl eq_refl)) as [s ->]. reflexivity.
Qed.

Lemma process_breadcrumbs_ok (v : pyval) :
  process_breadcrumbs v <> None <-> breadcrumbs_ok v = true.
Proof.
  destruct v as [| | | s | xs | kvs]; simpl; try (iff_cases).
  - destruct s as [|c s]; [iff_cases |].
    rewrite map_opt_str_none; [iff_cases | discriminate |].
    intros x Hx. apply in_map_iff in Hx. destruct Hx as [c' [<- _]].
    eexists. reflexivity.
  - rewrite <- (map_opt_ok move_breadcrumb_timestamp breadcrumb_ok xs)
      by (intros x _; apply move_breadcrumb_ok).
    destruct (map_opt move_breadcrumb_timestamp xs); split; congruence.
  - destruct kvs as [|kv kvs]; [iff_cases |].
    rewrite map_opt_str_none; [iff_cases | discriminate |].
    intros x Hx. apply in_map_iff in Hx. destruct Hx as [kv' [<- _]].
    eexists. reflexivity.
Qed.

Lemma move_breadcrumb_idem (b b' : pyval) :
  move_breadcrumb_timestamp b = Some b' ->
  move_breadcrumb_timestamp b' = Some b'.
Proof.
  destruct b as [| | | | | bd]; simpl; try discriminate.
  destruct (lookup "data" bd) as [[| | | | | d]|] eqn:Hd; try discriminate.
  destruct (lookup "timestamp" bd) as [ts|] eqn:Ht; try discriminate.
  destruct (pop "timestamp" ts d) as [v d'] eqn:Hp. intros [= <-].
  assert (Hd' : d' = remove "timestamp" d).
  { rewrite <- (pop_remove "timestamp" ts d), Hp. reflexivity. }
  set (bd1 := set "timestamp" v (set "data" (PDict d') bd)).
  simpl.
  assert (H1 : lookup "data" bd1 = Some (PDict d')).
  { unfold bd1. rewrite lookup_set_neq by keys_neq. apply lookup_set_eq. }
  assert (H2 : lookup "timestamp" bd1 = Some v) by apply lookup_set_eq.
  rewrite H1, H2.
  rewrite pop_absent by (rewrite Hd'; apply lookup_remove_eq).
  rewrite (set_holds_id "data" (PDict d') bd1).
  2:{ unfold bd1. apply holds_set_neq; [keys_neq | apply holds_set]. }
  2:{ rewrite H1. discriminate. }
  rewrite (set_holds_id "timestamp" v bd1); [reflexivity | apply holds_set |].
  rewrite H2. discriminate.
Qed.

Lemma map_opt_idem {A : Type} (f : A -> option A) (xs ys : list A) :
  (forall x y, f x = Some y -> f y = Some y) ->
  map_opt f xs = Some ys -> map_opt f ys = Some ys.
Proof.
  intros Hf. revert ys.
  induction xs as [|x xs IH]; simpl; intros ys H.
  - injection H as <-. reflexivity.
  - destruct (f x) as [y|] eqn:Hx; [| discriminate].
    destruct (map_opt f xs) as [ys'|]; [| discriminate].
    injection H as <-. simpl. rewrite (Hf x y Hx), (IH ys' eq_refl).
    reflexivity.
Qed.

Lemma process_breadcrumbs_idem (v v' : pyval) :
  process_breadcrumbs v = Some v' -> process_breadcrumbs v' = Some v'.
Proof.
  destruct v as [| | | s | xs | kvs]; simpl; try discriminate.
  - destruct (map_opt move_breadcrumb_timestamp _) eqn:H; [| discriminate].
    intros [= <-]. simpl. rewrite H. reflexivity.
  - destruct (map_opt move_breadcrumb_timestamp xs) as [ys|] eqn:H; [| discriminate]. intros [= <-].
    simpl. rewrite (map_opt_idem _ xs ys move_breadcrumb_idem H). reflexivity.
  - destruct (map_opt move_breadcrumb_timestamp _) eqn:H; [| discriminate].
    intros [= <-]. simpl. rewrite H. reflexivity.
Qed.

End BreadcrumbFacts.

Module RewriterIdem.
Import Dict DictFacts RewriterFacts BreadcrumbFacts.

Ltac lookup_tac :=
  repeat first
    [ rewrite lookup_set_eq
    | rewrite lookup_set_neq by keys_neq
    | rewrite lookup_with_params_neq by keys_neq ].

Ltac holds_tac :=
  repeat first
    [ apply holds_set
    | apply holds_set_neq; [keys_neq |]
    | apply holds_with_params; [keys_neq |] ].

(** After one pass over an event of another logger, a second pass returns
    the event it is given. *)
Lemma process_syslog_fields_fixed (e hint e' : pydict) (lg : pyval) :
  lookup "logger" e = Some lg -> is_own_logger lg = false ->
  process_syslog_fields e hint = Some e' ->
  process_syslog_fields e' hint = Some e'.
Proof.
  intros Hl Ho Hpsf.
  rewrite (process_syslog_fields_unfold e hint lg Hl Ho) in Hpsf.
  destruct (logentry_params e) as [ps|] eqn:Hp; [| discriminate].
  destruct (lookup "server_name" e) as [sn|] eqn:Hs; [| discriminate].
  destruct (lookup "timestamp" e) as [ts|] eqn:Ht; [| discriminate].
  destruct (process_breadcrumbs (get "breadcrumbs" (PList []) e))
    as [bcs|] eqn:Hb; [| discriminate].
  set (ps1 := remove "hostname" ps) in *.
  set (ps2 := remove "timestamp" ps1) in *.
  set (hv := fst (pop "hostname" sn ps)) in *.
  set (tv := fst (pop "timestamp" ts ps1)) in *.
  set (e1 := set "platform" (PStr "syslog") e) in *.
  set (e2 := set "server_name" hv (with_params ps1 e1)) in *.
  set (e3 := set "timestamp" tv (with_params ps2 e2)) in *.
  injection Hpsf as He'.
  assert (Hlp2 : logentry_params e2 <> None).
  { unfold e2, e1. rewrite logentry_params_set_neq by keys_neq.
    rewrite logentry_params_with_params; [discriminate |].
    rewrite logentry_params_set_neq by keys_neq. congruence. }
  assert (Hset3 : params_settled ps2 e3).
  { apply params_settled_set_neq; [keys_neq |].
    apply params_settled_with_params. exact Hlp2. }
  assert (Hps2_h : lookup "hostname" ps2 = None).
  { unfold ps2, ps1. rewrite lookup_remove_neq by keys_neq.
    apply lookup_remove_eq. }
  assert (Hps2_t : lookup "timestamp" ps2 = None) by apply lookup_remove_eq.
  assert (Hset' : params_settled ps2 e').
  { rewrite <- He'. destruct (mem "breadcrumbs" e); [| exact Hset3].
    apply params_settled_set_neq; [keys_neq | exact Hset3]. }
  destruct (with_params_settled ps2 e' Hset') as [Hw' Hlp'].
  assert (Hsame : forall k v, k <> "breadcrumbs" -> holds k v e3 ->
                  lookup k e3 <> None -> set k v e' = e').
  { intros k v Hk Hh Hn. apply set_holds_id.
    - rewrite <- He'. destruct (mem "breadcrumbs" e); [| exact Hh].
      apply holds_set_neq; assumption.
    - rewrite <- He'. destruct (mem "breadcrumbs" e); [| exact Hn].
      rewrite lookup_set_neq by exact Hk. exact Hn. }
  assert (Hlk : forall k, k <> "breadcrumbs" -> lookup k e' = lookup k e3).
  { intros k Hk. rewrite <- He'. destruct (mem "breadcrumbs" e); [| reflexivity].
    apply lookup_set_neq. exact Hk. }
  assert (Hl' : lookup "logger" e' = Some lg).
  { rewrite Hlk by keys_neq. unfold e3, e2, e1. lookup_tac. exact Hl. }
  rewrite (process_syslog_fields_unfold e' hint lg Hl' Ho).
  rewrite Hlp'.
  rewrite Hlk by keys_neq.
  replace (lookup "server_name" e3) with (Some hv)
    by (unfold e3, e2; lookup_tac; reflexivity).
  rewrite Hlk by keys_neq.
  replace (lookup "timestamp" e3) with (Some tv)
    by (unfold e3; lookup_tac; reflexivity).
  rewrite (remove_absent "hostname" ps2 Hps2_h).
  rewrite (remove_absent "timestamp" ps2 Hps2_t).
  rewrite (pop_absent "hostname" hv ps2 Hps2_h).
  rewrite (pop_absent "timestamp" tv ps2 Hps2_t). cbv zeta. simpl fst.
  rewrite (Hsame "platform" (PStr "syslog"));
    [| keys_neq | unfold e3, e2, e1; holds_tac
     | unfold e3, e2, e1; lookup_tac; discriminate].
  rewrite Hw'.
  rewrite (Hsame "server_name" hv);
    [| keys_neq | unfold e3, e2; holds_tac
     | unfold e3, e2; lookup_tac; discriminate].
  rewrite Hw'.
  rewrite (Hsame "timestamp" tv);
    [| keys_neq | unfold e3; holds_tac | unfold e3; lookup_tac; discriminate].
  unfold get, mem in *. rewrite <- He'.
  destruct (lookup "breadcrumbs" e) as [v|] eqn:Hbe.
  - rewrite lookup_set_eq. rewrite (process_breadcrumbs_idem v bcs Hb).
    rewrite (set_holds_id "breadcrumbs" bcs); [reflexivity | apply holds_set |].
    rewrite lookup_set_eq. discriminate.
  - unfold e2, e1. lookup_tac. rewrite Hbe. reflexivity.
Qed.

End RewriterIdem.

Module BreadcrumbFrame.
Import Dict DictFacts.

Lemma move_breadcrumb_frame (b b' : pyval) :
  move_breadcrumb_timestamp b = Some b' -> breadcrumb_frame b b'.
Proof.
  destruct b as [| | | | | bd]; simpl; try discriminate.
  destruct (lookup "data" bd) as [[| | | | | d]|] eqn:Hd; try discriminate.
  destruct (lookup "timestamp" bd) as [ts|] eqn:Ht; try discriminate.
  destruct (pop "timestamp" ts d) as [v d'] eqn:Hp. intros [= <-].
  assert (Hd' : d' = remove "timestamp" d).
  { rewrite <- (pop_remove "timestamp" ts d), Hp. reflexivity. }
  exists bd, d, (set "timestamp" v (set "data" (PDict d') bd)).
  repeat split; try assumption.
  - intros k Hk1 Hk2. rewrite !lookup_set_neq by assumption. reflexivity.
  - rewrite lookup_set_neq by keys_neq. rewrite lookup_set_eq, Hd'.
    reflexivity.
Qed.

Lemma map_opt_frame (xs ys : list pyval) :
  map_opt move_breadcrumb_timestamp xs = Some ys ->
  Forall2 breadcrumb_frame xs ys.
Proof.
  revert ys. induction xs as [|x xs IH]; simpl; intros ys H.
  - injection H as <-. constructor.
  - destruct (move_breadcrumb_timestamp x) as [y|] eqn:Hx; [| discriminate].
    destruct (map_opt move_breadcrumb_timestamp xs) as [ys'|];
      [| discriminate].
    injection H as <-. constructor.
    + apply move_breadcrumb_frame. exact Hx.
    + apply IH. reflexivity.
Qed.

Lemma process_breadcrumbs_frame (v v' : pyval) :
  process_breadcrumbs v = Some v' -> breadcrumbs_frame v v'.
Proof.
  destruct v as [| | | s | xs | kvs]; simpl; try discriminate.
  - destruct (map_opt move_breadcrumb_timestamp _); [| discriminate].
    intros [= <-]. reflexivity.
  - destruct (map_opt move_breadcrumb_timestamp xs) as [ys|] eqn:H;
      [| discriminate].
    intros [= <-]. apply map_opt_frame. exact H.
  - destruct (map_opt move_breadcrumb_timestamp _); [| discriminate].
    intros [= <-]. reflexivity.
Qed.

End BreadcrumbFrame.

(** ** The [before_send] callback: claims *)

Module Rewriter.
Import Dict DictFacts RewriterFacts BreadcrumbFacts BreadcrumbFrame RewriterIdem.

(** C6 (as amended): [process_syslog_fields] returns without raising
    exactly on the events [rewritable] accepts: the event has a [logger]
    entry, and either it is the module's own logger or the event has a
    [logentry.params] dict, [server_name] and [timestamp] entries and, when
    present, [breadcrumbs] that are a list of dicts each with a [data] dict
    and a [timestamp] entry, or an empty iterable.  On any other event it
    raises. *)
Theorem process_syslog_fields_raises_iff (e hint : pydict) :
  process_syslog_fields e hint <> None <-> rewritable e = true.
Proof.
  unfold rewritable. destruct (lookup "logger" e) as [lg|] eqn:Hl.
  2:{ unfold process_syslog_fields. rewrite Hl. iff_cases. }
  destruct (is_own_logger lg) eqn:Ho.
  { unfold process_syslog_fields. rewrite Hl, Ho. iff_cases. }
  rewrite (process_syslog_fields_unfold e hint lg Hl Ho). simpl orb.
  destruct (logentry_params e) as [ps|]; [| iff_cases].
  unfold mem, get.
  destruct (lookup "server_name" e); [| iff_cases].
  destruct (lookup "timestamp" e); [| iff_cases].
  destruct (lookup "breadcrumbs" e) as [v|]; [| iff_cases].
  simpl andb. rewrite <- process_breadcrumbs_ok.
  destruct (process_breadcrumbs v); iff_cases.
Qed.

(** C6 fails: an event of another logger without a [logentry] makes
    [process_syslog_fields] raise (a [KeyError]). *)
Lemma process_syslog_fields_raises_example :
  process_syslog_fields [("logger", PStr "auth.myapp")] [] = None.
Proof. reflexivity. Qed.

(** C7: applying [process_syslog_fields] a second time to the event it
    returned gives that event again; and when [hostname] (resp.
    [timestamp]) is missing from the params, [server_name] (resp.
    [timestamp]) keeps its prior value. *)
Theorem process_syslog_fields_idempotent (e hint : pydict) :
  match process_syslog_fields e hint with
  | Some e' => process_syslog_fields e' hint
  | None => None
  end = process_syslog_fields e hint /\
  (forall lg ps e',
     lookup "logger" e = Some lg -> is_own_logger lg = false ->
     logentry_params e = Some ps ->
     process_syslog_fields e hint = Some e' ->
     (lookup "hostname" ps = None ->
        lookup "server_name" e' = lookup "server_name" e) /\
     (lookup "timestamp" ps = None ->
        lookup "timestamp" e' = lookup "timestamp" e)).
Proof.
  split.
  - destruct (process_syslog_fields e hint) as [e'|] eqn:H; [| reflexivity].
    destruct (lookup "logger" e) as [lg|] eqn:Hl.
    2:{ unfold process_syslog_fields in H. rewrite Hl in H. discriminate. }
    destruct (is_own_logger lg) eqn:Ho.
    + unfold process_syslog_fields in H. rewrite Hl, Ho in H.
      injection H as <-. unfold process_syslog_fields. rewrite Hl, Ho.
      reflexivity.
    + rewrite (process_syslog_fields_fixed e hint e' lg Hl Ho H). reflexivity.
  - intros lg ps e' Hl Ho Hp H.
    rewrite (process_syslog_fields_unfold e hint lg Hl Ho), Hp in H.
    destruct (lookup "server_name" e) as [sn|] eqn:Hs; [| discriminate].
    destruct (lookup "timestamp" e) as [ts|] eqn:Ht; [| discriminate].
    destruct (process_breadcrumbs (get "breadcrumbs" (PList []) e));
      [| discriminate].
    injection H as <-.
    assert (Hk : forall k, k <> "breadcrumbs" ->
              lookup k (if mem "breadcrumbs" e
                        then set "breadcrumbs" p
                               (set "timestamp"
                                  (fst (pop "timestamp" ts (remove "hostname" ps)))
                                  (with_params
                                     (remove "timestamp" (remove "hostname" ps))
                                     (set "server_name"
                                        (fst (pop "hostname" sn ps))
                                        (with_params (remove "hostname" ps)
                                           (set "platform" (PStr "syslog") e)))))
                        else set "timestamp"
                               (fst (pop "timestamp" ts (remove "hostname" ps)))
                               (with_params
                                  (remove "timestamp" (remove "hostname" ps))
                                  (set "server_name"
                                     (fst (pop "hostname" sn ps))
                                     (with_params (remove "hostname" ps)
                                        (set "platform" (PStr "syslog") e)))))
              = lookup k
                  (set "timestamp"
                     (fst (pop "timestamp" ts (remove "hostname" ps)))
                     (with_params
                        (remove "timestamp" (remove "hostname" ps))
                        (set "server_name"
                           (fst (pop "hostname" sn ps))
                           (with_params (remove "hostname" ps)
                              (set "platform" (PStr "syslog") e)))))).
    { intros k Hk. destruct (mem "breadcrumbs" e); [| reflexivity].
      apply lookup_set_neq. exact Hk. }
    split; intros Hmiss; rewrite Hk by keys_neq; lookup_tac.
    + rewrite pop_absent by exact Hmiss. reflexivity.
    + rewrite pop_absent; [reflexivity |].
      rewrite lookup_remove_neq by keys_neq. exact Hmiss.
Qed.

(** C10: on an event of another logger, [process_syslog_fields] changes
    no top-level entry but [platform], [server_name], [timestamp],
    [logentry] and [breadcrumbs]; in [logentry] it changes only [params],
    which loses its [hostname] and [timestamp] entries and keeps the
    others; a list of breadcrumbs is updated breadcrumb by breadcrumb as
    [breadcrumbs_frame] says (only [timestamp] and the [timestamp] entry of
    [data] change), and any other [breadcrumbs] value is kept. *)
Theorem process_syslog_fields_frame (e hint e' : pydict) (lg : pyval) :
  lookup "logger" e = Some lg -> is_own_logger lg = false ->
  process_syslog_fields e hint = Some e' ->
  (forall k, ~ In k ["platform"; "server_name"; "timestamp"; "logentry";
                     "breadcrumbs"] ->
     lookup k e' = lookup k e) /\
  (exists le ps le',
     lookup "logentry" e = Some (PDict le) /\
     lookup "params" le = Some (PDict ps) /\
     lookup "logentry" e' = Some (PDict le') /\
     (forall k, k <> "params" -> lookup k le' = lookup k le) /\
     lookup "params" le'
       = Some (PDict (remove "timestamp" (remove "hostname" ps)))) /\
  match lookup "breadcrumbs" e with
  | None => lookup "breadcrumbs" e' = None
  | Some v => exists v', lookup "breadcrumbs" e' = Some v' /\
                         breadcrumbs_frame v v'
  end.
Proof.
  intros Hl Ho H.
  rewrite (process_syslog_fields_unfold e hint lg Hl Ho) in H.
  destruct (logentry_params e) as [ps|] eqn:Hp; [| discriminate].
  destruct (lookup "server_name" e) as [sn|] eqn:Hs; [| discriminate].
  destruct (lookup "timestamp" e) as [ts|] eqn:Ht; [| discriminate].
  destruct (process_breadcrumbs (get "breadcrumbs" (PList []) e))
    as [bcs|] eqn:Hb; [| discriminate].
  cbv zeta in H.
  set (e2 := set "server_name" _ _) in H.
  set (e3 := set "timestamp" _ _) in H.
  injection H as <-.
  assert (Hk : forall k, k <> "breadcrumbs" ->
            lookup k (if mem "breadcrumbs" e then set "breadcrumbs" bcs e3
                      else e3) = lookup k e3).
  { intros k Hk. destruct (mem "breadcrumbs" e); [| reflexivity].
    apply lookup_set_neq. exact Hk. }
  split; [| split].
  - intros k Hin. simpl in Hin.
    assert (Hne : forall k', In k' ["platform"; "server_name"; "timestamp";
                                    "logentry"; "breadcrumbs"] -> k <> k')
      by (intros k' Hk' ->; apply Hin; simpl in Hk'; tauto).
    rewrite Hk by (apply Hne; simpl; tauto).
    unfold e3, e2.
    rewrite lookup_set_neq by (apply Hne; simpl; tauto).
    rewrite lookup_with_params_neq by (apply Hne; simpl; tauto).
    rewrite lookup_set_neq by (apply Hne; simpl; tauto).
    rewrite lookup_with_params_neq by (apply Hne; simpl; tauto).
    rewrite lookup_set_neq by (apply Hne; simpl; tauto).
    reflexivity.
  - unfold logentry_params in Hp.
    destruct (lookup "logentry" e) as [[| | | | | le]|] eqn:Hle;
      try discriminate.
    destruct (lookup "params" le) as [[| | | | | ps0]|] eqn:Hpar;
      try discriminate.
    injection Hp as <-.
    exists le, ps0,
      (set "params" (PDict (remove "timestamp" (remove "hostname" ps0)))
         (set "params" (PDict (remove "hostname" ps0)) le)).
    split; [reflexivity |]. split; [exact Hpar |]. split.
    + rewrite Hk by keys_neq. unfold e3, e2.
      rewrite lookup_set_neq by keys_neq.
      rewrite lookup_with_params_logentry.
      rewrite lookup_set_neq by keys_neq.
      rewrite lookup_with_params_logentry.
      rewrite lookup_set_neq by keys_neq. rewrite Hle. reflexivity.
    + split.
      * intros k Hk'. rewrite !lookup_set_neq by exact Hk'. reflexivity.
      * apply lookup_set_eq.
  - unfold get, mem in *.
    destruct (lookup "breadcrumbs" e) as [v|] eqn:Hbe.
    + exists bcs. split; [apply lookup_set_eq |].
      apply process_breadcrumbs_frame. exact Hb.
    + unfold e3, e2. lookup_tac. exact Hbe.
Qed.

Lemma process_syslog_fields_frame_witness :
  lookup "logger" example_event = Some (PStr "auth.myapp") /\
  is_own_logger (PStr "auth.myapp") = false /\
  process_syslog_fields example_event [] = Some example_event_rewritten /\
  (forall k, ~ In k ["platform"; "server_name"; "timestamp"; "logentry";
                     "breadcrumbs"] ->
     lookup k example_event_rewritten = lookup k example_event) /\
  (exists le ps le',
     lookup "logentry" example_event = Some (PDict le) /\
     lookup "params" le = Some (PDict ps) /\
     lookup "logentry" example_event_rewritten = Some (PDict le') /\
     (forall k, k <> "params" -> lookup k le' = lookup k le) /\
     lookup "params" le'
       = Some (PDict (remove "timestamp" (remove "hostname" ps)))) /\
  match lookup "breadcrumbs" example_event with
  | None => lookup "breadcrumbs" example_event_rewritten = None
  | Some v => exists v', lookup "breadcrumbs" example_event_rewritten = Some v' /\
                         breadcrumbs_frame v v'
  end.
Proof.
  assert (H1 : lookup "logger" example_event = Some (PStr "auth.myapp"))
    by reflexivity.
  assert (H2 : is_own_logger (PStr "auth.myapp") = false) by reflexivity.
  assert (H3 : process_syslog_fields example_event []
               = Some example_event_rewritten) by (vm_compute; reflexivity).
  split; [exact H1 |]. split; [exact H2 |]. split; [exact H3 |].
  exact (process_syslog_fields_frame example_event [] example_event_rewritten
           (PStr "auth.myapp") H1 H2 H3).
Defined.

(** C2 (the failing input): the example line, forwarded at the default
    event level, is logged through the module logger [sentrysyslog], the
    same logger the self-origin guard of [process_syslog_fields] tests, so
    the payload built from it comes back unchanged: [server_name] and
    [timestamp] keep the SDK's values and [platform] stays [python].  The
    same call made through the per-facility logger of the original code
    ([auth.myapp]) is rewritten to [server_name = myhost],
    [timestamp = 2021-01-01T00:00:00Z] and [platform = syslog]. *)
Theorem example_event_not_rewritten (hint : pydict) :
  exists c,
    log_syslog_line example_parse example_line ERROR = Some ([c], example_msg) /\
    lc_logger c = logger_name /\
    process_syslog_fields (sdk_event c capture_host capture_time) hint
      = Some (sdk_event c capture_host capture_time) /\
    lookup "server_name" (sdk_event c capture_host capture_time)
      = Some (PStr "collector") /\
    lookup "timestamp" (sdk_event c capture_host capture_time)
      = Some (PStr "2026-10-15T08:00:00Z") /\
    lookup "platform" (sdk_event c capture_host capture_time)
      = Some (PStr "python") /\
    exists e',
      process_syslog_fields
        (sdk_event (mkLogCall "auth.myapp" (lc_level c) (lc_msg c) (lc_args c)
                      (lc_kwargs c) (lc_exc_info c))
           capture_host capture_time) hint = Some e' /\
      lookup "server_name" e' = Some (PStr "myhost") /\
      lookup "timestamp" e' = Some (PStr "2021-01-01T00:00:00Z") /\
      lookup "platform" e' = Some (PStr "syslog").
Proof.
  eexists. split; [reflexivity |].
  repeat split.
  eexists. repeat split.
Qed.

End Rewriter.

(** ** Further properties of the module *)

Module Extras.
Import Dict DictFacts RewriterFacts BreadcrumbFacts RewriterIdem.

Lemma lookup_in (k : string) (v : pyval) (d : pydict) :
  lookup k d = Some v -> In (k, v) d.
Proof.
  induction d as [|[k' v'] d IH]; simpl; [discriminate |].
  destruct (String.eqb k k') eqn:E.
  - apply String.eqb_eq in E. subst. intros [= ->]. left. reflexivity.
  - intros H. right. exact (IH H).
Qed.

(** [logging_level_type] accepts exactly the six canonical level names and
    returns their numeric level; aliases such as [WARN] and [FATAL], the
    boolean attributes of [logging] and any other name are rejected. *)
Theorem logging_level_type_accepts (level_name : string) (v : pyval) :
  logging_level_type level_name = Some v <->
  In (level_name, v)
    [ ("CRITICAL", PInt CRITICAL); ("ERROR", PInt ERROR);
      ("WARNING", PInt WARNING); ("INFO", PInt INFO);
      ("DEBUG", PInt DEBUG); ("NOTSET", PInt 0) ].
Proof.
  split.
  - unfold logging_level_type.
    destruct (lookup level_name logging_int_attrs) as [level|] eqn:H;
      [| discriminate].
    apply lookup_in in H.
    repeat (destruct H as [H | H]; [injection H as <- <-; simpl;
                                     try discriminate;
                                     intros [= <-]; simpl; tauto |]).
    destruct H.
  - simpl. intros H.
    repeat (destruct H as [H | H]; [injection H as <- <-; reflexivity |]).
    destruct H.
Qed.

(** With the default event level ([ERROR]), a parsed line of severity
    emerg, alert, crit or err is logged with the field projection as its
    positional argument (a Sentry event), and a line of severity warning,
    notice, info or debug with the projection as [extra] (a
    breadcrumb). *)
Theorem default_level_event_severities
  (parse : string -> option SyslogMessage) (line : string)
  (m : SyslogMessage) :
  parse line = Some m ->
  exists c,
    log_syslog_line parse line default_event_level = Some ([c], m) /\
    (In (severity m) [emerg; alert; crit; err] ->
       lc_args c = [PDict (syslog_fields (as_dict m))] /\ lc_kwargs c = []) /\
    (In (severity m) [warning; notice; info; debug] ->
       lc_args c = [] /\
       lc_kwargs c = [("extra", PDict (syslog_fields (as_dict m)))]).
Proof.
  intros Hp. unfold log_syslog_line. rewrite Hp.
  destruct (severity m) eqn:Hs; simpl; eexists; (split; [reflexivity |]);
    split; simpl; intros H;
    repeat (destruct H as [H | H]; [discriminate H |]);
    try (destruct H; fail); split; reflexivity.
Qed.

Lemma default_level_event_severities_witness :
  example_parse example_line = Some example_msg /\
  exists c,
    log_syslog_line example_parse example_line default_event_level
      = Some ([c], example_msg) /\
    (In (severity example_msg) [emerg; alert; crit; err] ->
       lc_args c = [PDict (syslog_fields (as_dict example_msg))] /\
       lc_kwargs c = []) /\
    (In (severity example_msg) [warning; notice; info; debug] ->
       lc_args c = [] /\
       lc_kwargs c = [("extra", PDict (syslog_fields (as_dict example_msg)))]).
Proof.
  split; [reflexivity |].
  apply (default_level_event_severities example_parse example_line
           example_msg).
  reflexivity.
Defined.

(** [run] makes exactly one logging call per input line: the forwarded
    record of a line that is handled, or the diagnostic of one that
    raises. *)
Theorem run_one_call_per_line (parse : string -> option SyslogMessage)
  (lines : list string) (event_level : Z) :
  length (run parse lines event_level) = length lines.
Proof.
  unfold run. induction lines as [|l ls IH]; [reflexivity |].
  simpl. rewrite length_app, IH. unfold run_line.
  destruct (parse (drop_last l)) as [m|] eqn:Hm.
  - destruct (severity_level_total (severity m)) as [level Hl].
    unfold log_syslog_line. rewrite Hm, Hl.
    destruct (level >=? event_level); reflexivity.
  - unfold log_syslog_line. rewrite Hm. reflexivity.
Qed.

(** A line that ends with a newline reaches [log_syslog_line] without
    it, and a diagnostic for it quotes the line as read. *)
Theorem run_strips_newline (parse : string -> option SyslogMessage)
  (s : string) (event_level : Z) :
  run parse [(s ++ newline)%string] event_level
  = match log_syslog_line parse s event_level with
    | Some (calls, _) => calls
    | None => [diagnostic (s ++ newline)%string]
    end.
Proof.
  unfold run. simpl. rewrite app_nil_r. unfold run_line.
  rewrite drop_last_newline. reflexivity.
Qed.

(** On an event of another logger that it returns, [process_syslog_fields]
    sets [platform] to [syslog], takes [server_name] from the [hostname]
    param when there is one (else keeps it) and [timestamp] from the
    [timestamp] param when there is one (else keeps it). *)
Theorem process_syslog_fields_moves_fields (e hint e' : pydict) (lg : pyval)
  (ps : pydict) :
  lookup "logger" e = Some lg -> is_own_logger lg = false ->
  logentry_params e = Some ps ->
  process_syslog_fields e hint = Some e' ->
  lookup "platform" e' = Some (PStr "syslog") /\
  lookup "server_name" e'
    = match lookup "hostname" ps with
      | Some h => Some h
      | None => lookup "server_name" e
      end /\
  lookup "timestamp" e'
    = match lookup "timestamp" ps with
      | Some t => Some t
      | None => lookup "timestamp" e
      end.
Proof.
  intros Hl Ho Hp H.
  rewrite (process_syslog_fields_unfold e hint lg Hl Ho), Hp in H.
  destruct (lookup "server_name" e) as [sn|] eqn:Hs; [| discriminate].
  destruct (lookup "timestamp" e) as [ts|] eqn:Ht; [| discriminate].
  destruct (process_breadcrumbs (get "breadcrumbs" (PList []) e))
    as [bcs|]; [| discriminate].
  cbv zeta in H. injection H as <-.
  assert (Hk : forall k e3, k <> "breadcrumbs" ->
            lookup k (if mem "breadcrumbs" e then set "breadcrumbs" bcs e3
                      else e3) = lookup k e3).
  { intros k e3 Hk. destruct (mem "breadcrumbs" e); [| reflexivity].
    apply lookup_set_neq. exact Hk. }
  rewrite !Hk by keys_neq. lookup_tac.
  split; [reflexivity |]. split.
  - unfold pop. destruct (lookup "hostname" ps); reflexivity.
  - unfold pop. rewrite lookup_remove_neq by keys_neq.
    destruct (lookup "timestamp" ps); reflexivity.
Qed.

Lemma process_syslog_fields_moves_fields_witness :
  lookup "logger" example_event = Some (PStr "auth.myapp") /\
  is_own_logger (PStr "auth.myapp") = false /\
  logentry_params example_event
    = Some (syslog_fields (as_dict example_msg)) /\
  process_syslog_fields example_event [] = Some example_event_rewritten /\
  lookup "platform" example_event_rewritten = Some (PStr "syslog") /\
  lookup "server_name" example_event_rewritten
    = match lookup "hostname" (syslog_fields (as_dict example_msg)) with
      | Some h => Some h
      | None => lookup "server_name" example_event
      end /\
  lookup "timestamp" example_event_rewritten
    = match lookup "timestamp" (syslog_fields (as_dict example_msg)) with
      | Some t => Some t
      | None => lookup "timestamp" example_event
      end.
Proof.
  assert (H1 : lookup "logger" example_event = Some (PStr "auth.myapp"))
    by reflexivity.
  assert (H2 : is_own_logger (PStr "auth.myapp") = false) by reflexivity.
  assert (H3 : logentry_params example_event
               = Some (syslog_fields (as_dict example_msg)))
    by (vm_compute; reflexivity).
  assert (H4 : process_syslog_fields example_event []
               = Some example_event_rewritten) by (vm_compute; reflexivity).
  split; [exact H1 |]. split; [exact H2 |]. split; [exact H3 |].
  split; [exact H4 |].
  exact (process_syslog_fields_moves_fields example_event []
           example_event_rewritten (PStr "auth.myapp")
           (syslog_fields (as_dict example_msg)) H1 H2 H3 H4).
Defined.

Lemma move_breadcrumb_timestamp_value (b b' : pyval) :
  move_breadcrumb_timestamp b = Some b' ->
  exists bd d bd',
    b = PDict bd /\ lookup "data" bd = Some (PDict d) /\ b' = PDict bd' /\
    lookup "timestamp" bd'
      = match lookup "timestamp" d with
        | Some t => Some t
        | None => lookup "timestamp" bd
        end.
Proof.
  destruct b as [| | | | | bd]; simpl; try discriminate.
  destruct (lookup "data" bd) as [[| | | | | d]|] eqn:Hd; try discriminate.
  destruct (lookup "timestamp" bd) as [ts|] eqn:Ht; try discriminate.
  destruct (pop "timestamp" ts d) as [v d'] eqn:Hpop. intros [= <-].
  exists bd, d. eexists. split; [reflexivity |]. split; [exact Hd |].
  split; [reflexivity |]. rewrite lookup_set_eq.
  unfold pop in Hpop. destruct (lookup "timestamp" d); congruence.
Qed.

(** On an event of another logger that it returns, [process_syslog_fields]
    gives each breadcrumb of a [breadcrumbs] list the [timestamp] of its
    [data] dict when there is one, and otherwise keeps the breadcrumb's
    own [timestamp]. *)
Theorem process_syslog_fields_breadcrumb_timestamps (e hint e' : pydict)
  (lg : pyval) (xs : list pyval) :
  lookup "logger" e = Some lg -> is_own_logger lg = false ->
  lookup "breadcrumbs" e = Some (PList xs) ->
  process_syslog_fields e hint = Some e' ->
  exists ys,
    lookup "breadcrumbs" e' = Some (PList ys) /\
    Forall2 (fun x y =>
      exists bd d bd',
        x = PDict bd /\ lookup "data" bd = Some (PDict d) /\ y = PDict bd' /\
        lookup "timestamp" bd'
          = match lookup "timestamp" d with
            | Some t => Some t
            | None => lookup "timestamp" bd
            end) xs ys.
Proof.
  intros Hl Ho Hb H.
  rewrite (process_syslog_fields_unfold e hint lg Hl Ho) in H.
  destruct (logentry_params e); [| discriminate].
  destruct (lookup "server_name" e); [| discriminate].
  destruct (lookup "timestamp" e); [| discriminate].
  unfold get, mem in H. rewrite Hb in H. simpl in H.
  destruct (map_opt move_breadcrumb_timestamp xs) as [ys|] eqn:Hm;
    [| discriminate].
  injection H as <-. exists ys. split; [apply lookup_set_eq |].
  clear Hb. revert ys Hm.
  induction xs as [|x xs IH]; simpl; intros ys Hm.
  - injection Hm as <-. constructor.
  - destruct (move_breadcrumb_timestamp x) as [y|] eqn:Hx; [| discriminate].
    destruct (map_opt move_breadcrumb_timestamp xs) as [ys'|];
      [| discriminate].
    injection Hm as <-. constructor.
    + apply move_breadcrumb_timestamp_value. exact Hx.
    + apply IH. reflexivity.
Qed.

Lemma process_syslog_fields_breadcrumb_timestamps_witness :
  lookup "logger" example_event = Some (PStr "auth.myapp") /\
  is_own_logger (PStr "auth.myapp") = false /\
  lookup "breadcrumbs" example_event = Some (PList [example_breadcrumb]) /\
  process_syslog_fields example_event [] = Some example_event_rewritten /\
  exists ys,
    lookup "breadcrumbs" example_event_rewritten = Some (PList ys) /\
    Forall2 (fun x y =>
      exists bd d bd',
        x = PDict bd /\ lookup "data" bd = Some (PDict d) /\ y = PDict bd' /\
        lookup "timestamp" bd'
          = match lookup "timestamp" d with
            | Some t => Some t
            | None => lookup "timestamp" bd
            end) [example_breadcrumb] ys.
Proof.
  assert (H1 : lookup "logger" example_event = Some (PStr "auth.myapp"))
    by reflexivity.
  assert (H2 : is_own_logger (PStr "auth.myapp") = false) by reflexivity.
  assert (H3 : lookup "breadcrumbs" example_event
               = Some (PList [example_breadcrumb])) by reflexivity.
  assert (H4 : process_syslog_fields example_event []
               = Some example_event_rewritten) by (vm_compute; reflexivity).
  split; [exact H1 |]. split; [exact H2 |]. split; [exact H3 |].
  split; [exact H4 |].
  exact (process_syslog_fields_breadcrumb_timestamps example_event []
           example_event_rewritten (PStr "auth.myapp") [example_breadcrumb]
           H1 H2 H3 H4).
Defined.

(** On an event of another logger that it returns, [process_syslog_fields]
    adds no top-level entry but [platform] and removes none. *)
Theorem process_syslog_fields_keeps_keys (e hint e' : pydict) (lg : pyval)
  (k : string) :
  lookup "logger" e = Some lg -> is_own_logger lg = false ->
  process_syslog_fields e hint = Some e' ->
  k <> "platform" ->
  (lookup k e' = None <-> lookup k e = None).
Proof.
  intros Hl Ho H Hk.
  rewrite (process_syslog_fields_unfold e hint lg Hl Ho) in H.
  destruct (logentry_params e) as [ps|] eqn:Hp; [| discriminate].
  destruct (lookup "server_name" e) as [sn|] eqn:Hs; [| discriminate].
  destruct (lookup "timestamp" e) as [ts|] eqn:Ht; [| discriminate].
  destruct (process_breadcrumbs (get "breadcrumbs" (PList []) e))
    as [bcs|]; [| discriminate].
  cbv zeta in H. injection H as <-.
  unfold mem.
  assert (Hbc : forall e3,
            (lookup k e3 = None <-> lookup k e = None) ->
            (lookup k (if match lookup "breadcrumbs" e with
                          | Some _ => true | None => false end
                       then set "breadcrumbs" bcs e3 else e3) = None
             <-> lookup k e = None)).
  { intros e3 H3. destruct (lookup "breadcrumbs" e) eqn:Hbe; [| exact H3].
    destruct (String.eqb_spec k "breadcrumbs") as [-> | Hb].
    - rewrite lookup_set_eq, Hbe. split; discriminate.
    - rewrite lookup_set_neq by exact Hb. exact H3. }
  apply Hbc. clear Hbc.
  destruct (String.eqb_spec k "timestamp") as [-> | H1].
  { rewrite lookup_set_eq, Ht. split; discriminate. }
  rewrite lookup_set_neq by exact H1.
  destruct (String.eqb_spec k "logentry") as [-> | H2].
  { rewrite lookup_with_params_logentry, lookup_set_neq by keys_neq.
    rewrite lookup_with_params_logentry, lookup_set_neq by keys_neq.
    unfold logentry_params in Hp.
    destruct (lookup "logentry" e) as [[]|]; try discriminate.
    split; discriminate. }
  rewrite lookup_with_params_neq by exact H2.
  destruct (String.eqb_spec k "server_name") as [-> | H3].
  { rewrite lookup_set_eq, Hs. split; discriminate. }
  rewrite lookup_set_neq, lookup_with_params_neq, lookup_set_neq
    by assumption.
  tauto.
Qed.

Lemma process_syslog_fields_keeps_keys_witness :
  lookup "logger" example_event = Some (PStr "auth.myapp") /\
  is_own_logger (PStr "auth.myapp") = false /\
  process_syslog_fields example_event [] = Some example_event_rewritten /\
  "level" <> "platform" /\
  (lookup "level" example_event_rewritten = None <->
   lookup "level" example_event = None).
Proof.
  assert (H1 : lookup "logger" example_event = Some (PStr "auth.myapp"))
    by reflexivity.
  assert (H2 : is_own_logger (PStr "auth.myapp") = false) by reflexivity.
  assert (H3 : process_syslog_fields example_event []
               = Some example_event_rewritten) by (vm_compute; reflexivity).
  assert (H4 : "level" <> "platform") by keys_neq.
  split; [exact H1 |]. split; [exact H2 |]. split; [exact H3 |].
  split; [exact H4 |].
  exact (process_syslog_fields_keeps_keys example_event []
           example_event_rewritten (PStr "auth.myapp") "level" H1 H2 H3 H4).
Defined.

End Extras.
